(** * Instruction composer of the mcp-use MCP server

    A shallow embedding of the two tool handlers of [src/index.ts], the
    [run-server] tool and the [deploy-server] tool, and the properties of the
    text they return.  Text is modelled as [string], one [ascii] per byte of
    its UTF-8 encoding. *)

From Stdlib Require Import String Ascii List ZArith Bool DecimalString.
From Stdlib Require Import Lia DecimalFacts DecimalPos DecimalZ.
Import ListNotations.
Local Open Scope string_scope.

(** ** The JavaScript operations the handlers rely on *)
Module JS.

(** [String.prototype.startsWith]: [hay] begins with [needle]. *)
Fixpoint startsWith (needle hay : string) : bool :=
  match needle with
  | EmptyString => true
  | String c needle' =>
      match hay with
      | EmptyString => false
      | String d hay' => Ascii.eqb c d && startsWith needle' hay'
      end
  end.

(** [String.prototype.includes]: [needle] occurs somewhere in [hay]. *)
Fixpoint includes (needle hay : string) : bool :=
  startsWith needle hay ||
  match hay with
  | EmptyString => false
  | String _ rest => includes needle rest
  end.

(** What the handlers need of the type of JavaScript numbers: the text a
    template literal substitutes for a number ([Number::toString], radix
    10) and the value of an integer literal of the program text. *)
Class Number (number : Type) := {
  ToString : number -> string;
  literal : Z -> number
}.

(** The exact decimal numeral of an integer, with a leading minus sign when
    negative. *)
Definition decimal (z : Z) : string := NilZero.string_of_int (Z.to_int z).

(** [Number.MAX_SAFE_INTEGER].  Every integer of magnitude at most
    [2^53 - 1] is a number of JavaScript, and [Number::toString] prints it
    digit by digit, as [decimal] does.  Beyond that bound not every integer
    is a number, and a number is printed with the fewest digits that
    identify it ([2^64] as 18446744073709552000), from [10^21] on with an
    exponent. *)
Definition MAX_SAFE_INTEGER : Z := 2 ^ 53 - 1.

(** The integers, standing for the safe integers of JavaScript: the
    instance is the program's on the integers of magnitude at most
    [MAX_SAFE_INTEGER], and statements over it are bounded accordingly. *)
#[export] Instance integer_Number : Number Z :=
  {| ToString := decimal; literal := fun z => z |}.

(** A parameter with a default value, [(x = d)] in a parameter list: the
    default is taken exactly when the argument is [undefined]. *)
Definition default_to {A : Type} (d : A) (x : option A) : A :=
  match x with
  | Some v => v
  | None => d
  end.

End JS.

(** ** The surroundings of a handler *)
Module Runtime.

(** Everything outside its arguments that a handler could observe or
    change: the clock, the state of the random-number generator, the
    [MCP_URL] environment variable and the number of calls already
    served. *)
Record World := {
  clock : Z;
  entropy : Z;
  MCP_URL : option string;
  served : nat
}.

(** A world in which to run examples. *)
Definition quiet : World :=
  {| clock := 0; entropy := 0; MCP_URL := None; served := 0 |}.

(** The spec names a single error, [ConfigurationError]; any other thrown
    value is an [Error] with its message. *)
Inductive error :=
| ConfigurationError
| Error (message : string).

Inductive settled (A : Type) :=
| Fulfilled (value : A)
| Rejected (reason : error).
Arguments Fulfilled {A} value.
Arguments Rejected {A} reason.

(** An [async] function: run in a world, it settles and leaves a world. *)
Definition Promise (A : Type) : Type := World -> settled A * World.

(** [return v] in an [async] function. *)
Definition resolve {A : Type} (v : A) : Promise A :=
  fun w => (Fulfilled v, w).

(** [throw e] in an [async] function. *)
Definition reject {A : Type} (e : error) : Promise A :=
  fun w => (Rejected e, w).

(** The response helper [text] imported from the framework
    (mcp-use/server): it wraps a string as the text content of a tool
    response.  Only the wrapped string is modelled. *)
Inductive ToolResult :=
| text (body : string).

(** [yields p w s]: run in [w], the call [p] returns the text [s] and
    leaves [w] as it was. *)
Definition yields (p : Promise ToolResult) (w : World) (s : string) : Prop :=
  p w = (Fulfilled (text s), w).

(** [fails_with p w e]: run in [w], the call [p] throws [e]. *)
Definition fails_with (p : Promise ToolResult) (w : World) (e : error) : Prop :=
  fst (p w) = Rejected e.

End Runtime.

Import JS Runtime.

(** ** Tool 1: run-server *)
Module RunServer.

(** The handler's argument after schema validation: both fields are
    optional ([None] is [undefined]); [port] is any number, the schema
    being [z.number().optional()]. *)
Record args (number : Type) := {
  useYarn : option bool;
  port : option number
}.
Arguments useYarn {number} _.
Arguments port {number} _.

Definition handler {number : Type} `{Number number} (a : args number)
  : Promise ToolResult :=
  let useYarn := default_to true (useYarn a) in
  let port := default_to (literal 3000) (port a) in
  let packageManager := if useYarn then "yarn" else "npm" in
  resolve (text ("To run your MCP server locally:

**Development mode (with hot reload):**
```bash
" ++ packageManager ++ " run dev
```

**Production mode:**
```bash
# First build
" ++ packageManager ++ " run build

# Then start
" ++ packageManager ++ " start
```

**With custom port:**
```bash
PORT=" ++ ToString port ++ " " ++ packageManager ++ " start
```

**Test with tunneling (before deployment):**
```bash
# Option 1: Auto-tunnel
mcp-use start --port " ++ ToString port ++ " --tunnel

# Option 2: Separate tunnel
" ++ packageManager ++ " start  # Terminal 1
npx @mcp-use/tunnel " ++ ToString port ++ "  # Terminal 2
```

Your server will be available at:
- 🌐 MCP endpoint: http://localhost:" ++ ToString port ++ "/mcp
- 🔍 Inspector UI: http://localhost:" ++ ToString port ++ "/inspector
- 🔒 Tunnel URL: https://[subdomain].local.mcp-use.run/mcp (when using tunnel)

**Tunnel details:**
- Expires after 24 hours
- Closes after 1 hour of inactivity
- Use to test with ChatGPT before deploying

Learn more: https://mcp-use.com/docs/tunneling")).

End RunServer.

(** ** Tool 2: deploy-server *)
Module DeployServer.

(** The values of the schema's [z.enum]. *)
Definition platforms : list string := ["mcp-use-cloud"; "supabase"; "other"].

(** The handler's argument: [platform] is kept as a string, so that the
    handler can also be asked about a value the schema would refuse. *)
Record args := {
  useYarn : option bool;
  platform : option string
}.

(** The three template literals of the handler's branches, named so that
    statements can refer to them. *)
Definition mcp_use_cloud_instructions (packageManager : string) : string :=
  "## Deploy to mcp-use Cloud (Recommended)

**Step 1: Login (if not already logged in)**
```bash
npx mcp-use login
```

**Step 2: Deploy**
```bash
" ++ packageManager ++ " run deploy
```

**If deployment fails with authentication error:**
```bash
# Run login command
npx mcp-use login

# Then try deploy again
" ++ packageManager ++ " run deploy
```

**After successful deployment:**
- ✅ You'll receive a public URL for your MCP server
- ✅ The server is automatically scaled and monitored
- ✅ HTTPS is enabled by default
- ✅ Zero-downtime deployments

**Deployment URL format:**
`https://your-server-name.mcp-use.com/mcp`

Use this URL to connect from ChatGPT, Claude, or other MCP clients.".

Definition supabase_instructions : string :=
  "## Deploy to Supabase

**Step 1: Install Supabase CLI**
```bash
npm install -g supabase
```

**Step 2: Initialize Supabase**
```bash
supabase init
```

**Step 3: Deploy as Edge Function**
```bash
supabase functions deploy mcp-server
```

See full guide: https://docs.mcp-use.com/typescript/server/deployment/supabase".

Definition custom_platform_instructions : string :=
  "## Deploy to Custom Platform

For other deployment platforms:
- **Vercel**: Use `vercel deploy`
- **Netlify**: Use `netlify deploy`
- **Railway**: Use `railway up`
- **Docker**: Build and deploy container

See deployment docs: https://docs.mcp-use.com/typescript/server/deployment".

Definition handler (a : args) : Promise ToolResult :=
  let useYarn := default_to true (useYarn a) in
  let platform := default_to "mcp-use-cloud" (platform a) in
  let packageManager := if useYarn then "yarn" else "npm" in
  let instructions := "# Deploy Your MCP Server

" in
  let instructions :=
    if platform =? "mcp-use-cloud" then
      instructions ++ mcp_use_cloud_instructions packageManager
    else if platform =? "supabase" then
      instructions ++ supabase_instructions
    else
      instructions ++ custom_platform_instructions in
  resolve (text instructions).

End DeployServer.

(** ** The vocabulary of the properties *)
Module Charset.

(** [mentions c s]: the character [c] occurs in [s]. *)
Fixpoint mentions (c : ascii) (s : string) : bool :=
  match s with
  | EmptyString => false
  | String d s' => Ascii.eqb d c || mentions c s'
  end.

(** [foreign n p]: no character of [p] occurs in [n]. *)
Fixpoint foreign (n p : string) : bool :=
  match p with
  | EmptyString => true
  | String c p' => negb (mentions c n) && foreign n p'
  end.

(** [drawn_from alphabet s]: every character of [s] is in [alphabet]. *)
Fixpoint drawn_from (alphabet s : string) : bool :=
  match s with
  | EmptyString => true
  | String c s' => mentions c alphabet && drawn_from alphabet s'
  end.

(** The characters of the decimal numerals of the integers. *)
Definition numeral_alphabet : string := "-0123456789".

End Charset.

Module Terms.
Import DeployServer.

(** The package-manager token a handler resolves from its [useYarn]
    argument. *)
Definition resolved_token (useYarn : option bool) : string :=
  if default_to true useYarn then "yarn" else "npm".

(** [Number.isSafeInteger], on the integers. *)
Definition safe_integer (z : Z) : Prop :=
  (- MAX_SAFE_INTEGER <= z <= MAX_SAFE_INTEGER)%Z.

(** The spec's input constraint on [port], a positive integer, on the safe
    integers. *)
Definition valid_port (port : Z) : Prop := (0 < port <= MAX_SAFE_INTEGER)%Z.

(** A [port] argument that is omitted or a safe integer. *)
Definition safe_port (port : option Z) : Prop :=
  match port with
  | Some p => safe_integer p
  | None => True
  end.

(** The header every deployment text starts with. *)
Definition header : string := "# Deploy Your MCP Server

".

(** The branch texts a call can append, for the package manager [pm]. *)
Definition branches (pm : string) : list string :=
  [mcp_use_cloud_instructions pm; supabase_instructions; custom_platform_instructions].

(** The branch texts that occur in [s]. *)
Definition appearing (pm s : string) : list string :=
  filter (fun b => includes b s) (branches pm).

(** No branch text occurs in another one, under either package manager. *)
Definition exclusive : bool :=
  let all := (branches "yarn" ++ branches "npm")%list in
  forallb (fun b1 => forallb (fun b2 => (b1 =? b2) || negb (includes b1 b2)) all) all.

End Terms.

Import Charset Terms.

(** ** The server object *)
Module Server.

(** The options given to [new MCPServer]. *)
Record options := {
  name : string;
  version : string;
  description : string;
  baseUrl : string
}.

(** [x || d] on an environment variable, a string or [undefined]: [x] when
    it is truthy, a non-empty string, and [d] otherwise. *)
Definition or_else (x : option string) (d : string) : string :=
  match x with
  | Some (String c rest) => String c rest
  | Some EmptyString => d
  | None => d
  end.

(** The options of the server, given the environment of the process. *)
Definition server (w : World) : options :=
  {| name := "mcp-use";
     version := "1.0.0";
     description := "helps Agents build mcp servers by providing tools and prompts for common paterns and best practices. Availble as http mcp server or Claude Skill";
     baseUrl := or_else (MCP_URL w) "http://localhost:3000" |}.

End Server.

(** ** Measures of a text *)
Module Layout.

(** [String.prototype.endsWith]: [hay] ends with [needle]. *)
Fixpoint endsWith (needle hay : string) : bool :=
  (hay =? needle) ||
  match hay with
  | EmptyString => false
  | String _ rest => endsWith needle rest
  end.

(** The number of occurrences of the character [c] in [s]. *)
Fixpoint count (c : ascii) (s : string) : nat :=
  match s with
  | EmptyString => 0
  | String d rest => (if Ascii.eqb d c then 1 else 0) + count c rest
  end.

(** The line feed and the backquote, of which code fences are made. *)
Definition line_feed : ascii := "010".
Definition backquote : ascii := "`".

End Layout.

Import Layout.

(** ** Occurrences of one string in another *)
Module Occurrence.

Lemma startsWith_cons (c : ascii) (n h : string) :
  startsWith n h = true -> startsWith (String c n) (String c h) = true.
Proof. intros Hn. simpl. now rewrite Ascii.eqb_refl. Qed.

Lemma startsWith_app (p n h : string) :
  startsWith n h = true -> startsWith (p ++ n) (p ++ h) = true.
Proof.
  intros Hn. induction p as [| c p IH]; [exact Hn | now apply startsWith_cons].
Qed.

Lemma startsWith_iff (n h : string) :
  startsWith n h = true <-> exists post, h = n ++ post.
Proof.
  revert h. induction n as [| c n IH]; intros h; simpl.
  - split; [intros _; now exists h | reflexivity].
  - destruct h as [| d h].
    + split; [discriminate | intros [post Hp]; discriminate].
    + rewrite andb_true_iff, Ascii.eqb_eq, IH. split.
      * intros [-> [post ->]]. now exists post.
      * intros [post Hp]. inversion Hp. split; [reflexivity | now exists post].
Qed.

Lemma includes_here (n h : string) : startsWith n h = true -> includes n h = true.
Proof. intros Hp. destruct h; simpl; rewrite Hp; reflexivity. Qed.

Lemma includes_later (c : ascii) (n h : string) :
  includes n h = true -> includes n (String c h) = true.
Proof. intros Hi. simpl. rewrite Hi. apply orb_true_r. Qed.

Lemma includes_app_r (a n h : string) :
  includes n h = true -> includes n (a ++ h) = true.
Proof.
  intros Hi. induction a as [| c a IH]; [exact Hi | now apply includes_later].
Qed.

(** [includes] is the usual notion of a substring. *)
Lemma includes_iff (n h : string) :
  includes n h = true <-> exists pre post, h = pre ++ n ++ post.
Proof.
  split.
  - induction h as [| c h IH]; simpl; intros Hi.
    + rewrite orb_false_r in Hi. apply startsWith_iff in Hi as [post Hp].
      now exists "", post.
    + apply orb_true_iff in Hi as [Hp | Hl].
      * apply startsWith_iff in Hp as [post Hp]. now exists "", post.
      * destruct (IH Hl) as (pre & post & ->). now exists (String c pre), post.
  - intros (pre & post & ->). apply includes_app_r, includes_here, startsWith_iff.
    now exists post.
Qed.

(** *** Strings that cannot take part in an occurrence *)

Lemma foreign_alphabet (alphabet n p : string) :
  foreign n alphabet = true -> drawn_from alphabet p = true -> foreign n p = true.
Proof.
  intros Ha. induction p as [| c p IH]; simpl; [reflexivity |].
  intros [Hc Hp]%andb_true_iff. rewrite (IH Hp), andb_true_r.
  clear IH Hp. induction alphabet as [| d al IHal]; simpl in *; [discriminate |].
  apply andb_true_iff in Ha as [Hd Hal].
  apply orb_true_iff in Hc as [->%Ascii.eqb_eq | Hc]; [exact Hd | now apply IHal].
Qed.

Lemma startsWith_foreign_head (d : ascii) (n b : string) :
  mentions d n = false -> n <> "" -> startsWith n (String d b) = false.
Proof.
  destruct n as [| c n]; [intros _ Hn; now elim Hn |]. simpl.
  intros [-> _]%orb_false_iff _. reflexivity.
Qed.

Lemma startsWith_before_foreign (d : ascii) (n a b : string) :
  mentions d n = false -> startsWith n (a ++ String d b) = startsWith n a.
Proof.
  revert a. induction n as [| c n IH]; intros a Hm; [reflexivity |].
  simpl in Hm. apply orb_false_iff in Hm as [Hcd Hm].
  destruct a as [| e a]; simpl.
  - now rewrite Hcd.
  - now rewrite IH.
Qed.

Lemma includes_nil (n : string) : n <> "" -> includes n "" = false.
Proof. destruct n; [intros Hn; now elim Hn | reflexivity]. Qed.

Lemma includes_across_char (d : ascii) (n a b : string) :
  mentions d n = false -> n <> "" ->
  includes n (a ++ String d b) = includes n a || includes n b.
Proof.
  intros Hm Hn. induction a as [| c a IH].
  - change (includes n (String d b) = includes n "" || includes n b).
    rewrite (includes_nil n Hn). simpl. now rewrite startsWith_foreign_head.
  - change (startsWith n (String c a ++ String d b) || includes n (a ++ String d b)
            = (startsWith n (String c a) || includes n a) || includes n b).
    rewrite IH, startsWith_before_foreign, orb_assoc; auto.
Qed.

Lemma includes_after_foreign (n p b : string) :
  foreign n p = true -> n <> "" -> includes n (p ++ b) = includes n b.
Proof.
  intros Hf Hn. induction p as [| c p IH]; [reflexivity |].
  simpl in Hf. apply andb_true_iff in Hf as [Hc Hp].
  apply negb_true_iff in Hc.
  change (startsWith n (String c (p ++ b)) || includes n (p ++ b) = includes n b).
  now rewrite startsWith_foreign_head, IH.
Qed.

(** No occurrence of [n] starts in, ends in or runs across a non-empty
    string [p] that shares no character with [n]. *)
Lemma includes_across (n a p b : string) :
  n <> "" -> p <> "" -> foreign n p = true ->
  includes n (a ++ p ++ b) = includes n a || includes n b.
Proof.
  intros Hn Hp Hf. destruct p as [| d p]; [now elim Hp |].
  simpl in Hf. apply andb_true_iff in Hf as [Hd Hf]. apply negb_true_iff in Hd.
  change (includes n (a ++ String d (p ++ b)) = includes n a || includes n b).
  now rewrite includes_across_char, includes_after_foreign.
Qed.

(** *** Proof search *)

(** For an occurrence: try the needle at every position of
    the text, stepping over the substituted parts. *)
Ltac match_here :=
  lazymatch goal with
  | |- startsWith EmptyString _ = true => reflexivity
  | |- startsWith (String _ _) (String _ _) = true =>
      apply startsWith_cons; match_here
  | |- startsWith (append ?p _) (append ?p _) = true =>
      apply startsWith_app; match_here
  end.

Ltac occurs :=
  lazymatch goal with
  | |- includes ?n ?h = true =>
      first [ solve [apply includes_here; match_here]
            | lazymatch h with
              | String _ _ => apply includes_later; occurs
              | append _ _ => apply includes_app_r; occurs
              end ]
  end.

(** The text before the first substituted part of [h], and the rest. *)
Ltac literal_head h :=
  lazymatch h with
  | String ?c ?t => let x := literal_head t in constr:(String c x)
  | _ => constr:(EmptyString)
  end.

Ltac literal_rest h :=
  lazymatch h with
  | String _ ?t => literal_rest t
  | _ => h
  end.

(** Proof that the needle has no occurrence in a text whose substituted
    parts are non-empty and share no character with it. *)
Ltac absent :=
  lazymatch goal with
  | |- includes ?n ?h = false =>
      let r := literal_rest h in
      lazymatch r with
      | append ?p ?y =>
          let x := literal_head h in
          change (includes n (x ++ p ++ y) = false);
          rewrite includes_across by (assumption || discriminate);
          apply orb_false_iff; split; [reflexivity | absent]
      | _ => reflexivity
      end
  end.

(** *** The decimal numerals *)

Lemma uint_digits (d : Decimal.uint) :
  drawn_from numeral_alphabet (NilEmpty.string_of_uint d) = true.
Proof. induction d; simpl; auto. Qed.

Lemma decimal_digits (z : Z) : drawn_from numeral_alphabet (decimal z) = true.
Proof.
  unfold decimal, NilZero.string_of_int, NilZero.string_of_uint.
  destruct (Z.to_int z) as [d | d]; destruct d;
    solve [reflexivity | apply (uint_digits (_ _)) | apply (uint_digits (Decimal.D0 _))
          | simpl; apply (uint_digits _) ].
Qed.

Lemma decimal_nonempty (z : Z) : decimal z <> "".
Proof.
  unfold decimal, NilZero.string_of_int, NilZero.string_of_uint.
  destruct (Z.to_int z) as [d | d]; destruct d; discriminate.
Qed.

Lemma to_int_proper (z : Z) :
  Z.to_int z <> Decimal.Pos Decimal.Nil /\ Z.to_int z <> Decimal.Neg Decimal.Nil.
Proof.
  split; intros Hz; pose proof (f_equal Z.of_int Hz) as E;
    rewrite DecimalZ.of_to in E; subst z; discriminate Hz.
Qed.

(** Read as a decimal numeral, [decimal z] is [z]. *)
Lemma decimal_reads_back (z : Z) :
  option_map Z.of_int (NilZero.int_of_string (decimal z)) = Some z.
Proof.
  unfold decimal. destruct (to_int_proper z) as [H1 H2].
  rewrite (NilZero.isi _ H1 H2). cbn [option_map]. now rewrite DecimalZ.of_to.
Qed.

Lemma uint_plain_digits (d : Decimal.uint) :
  drawn_from "0123456789" (NilEmpty.string_of_uint d) = true.
Proof. induction d; simpl; auto. Qed.

Lemma to_uint_normal (p : positive) : Decimal.unorm (Pos.to_uint p) = Pos.to_uint p.
Proof.
  rewrite <- (DecimalPos.Unsigned.to_of (Pos.to_uint p)), DecimalPos.Unsigned.of_to.
  reflexivity.
Qed.

Lemma to_uint_no_leading_zero (p : positive) (d : Decimal.uint) :
  Pos.to_uint p <> Decimal.D0 d.
Proof.
  intros E. pose proof (to_uint_normal p) as Hn. rewrite E in Hn.
  rewrite DecimalFacts.unorm_D0 in Hn.
  assert (Hd : d = Decimal.Nil \/ d <> Decimal.Nil)
    by (destruct d; (now left) || (right; discriminate)).
  destruct Hd as [-> | Hd]; [exact (DecimalPos.Unsigned.to_uint_nonzero p E) |].
  pose proof (DecimalFacts.nb_digits_unorm d Hd) as Hle.
  rewrite Hn in Hle. cbn [Decimal.nb_digits] in Hle. lia.
Qed.

(** The numeral of a positive integer: digits only, the first of them not
    a zero. *)
Lemma decimal_positive (z : Z) :
  (0 < z)%Z ->
  drawn_from "0123456789" (decimal z) = true /\ startsWith "0" (decimal z) = false.
Proof.
  destruct z as [| p | p]; intros Hz; try discriminate Hz.
  unfold decimal. cbn [Z.to_int NilZero.string_of_int]. unfold NilZero.string_of_uint.
  pose proof (DecimalPos.Unsigned.to_uint_nonnil p) as Hnil.
  pose proof (to_uint_no_leading_zero p) as Hzero.
  pose proof (uint_plain_digits (Pos.to_uint p)) as Hd.
  destruct (Pos.to_uint p) as [| d | d | d | d | d | d | d | d | d | d];
    try (split; [exact Hd | reflexivity]).
  - now elim Hnil.
  - now elim (Hzero d).
Qed.

End Occurrence.

(** ** Outcomes of a call *)

Lemma yields_not_fails (p : Promise ToolResult) (w : World) (s : string) :
  yields p w s -> forall e, ~ fails_with p w e.
Proof. unfold yields, fails_with. intros -> e. discriminate. Qed.

Lemma yields_functional (p : Promise ToolResult) (w : World) (s t : string) :
  yields p w s -> yields p w t -> s = t.
Proof. unfold yields. intros -> [= ->]. reflexivity. Qed.

(** ** Properties of the run-server tool *)
Module RunServerFacts.
Import Occurrence RunServer.

(** C1: for every valid [(useYarn, port)], [port] a positive safe integer,
    the returned text has the decimal numeral of [port] in the command line
    of the custom-port section, [PORT=<port> <pm> start]; it mentions yarn
    exactly when [useYarn] is true, and has npm as its package manager when
    [useYarn] is false.  The numeral is the one that reads back as [port],
    made of digits only and without a leading zero. *)
Theorem run_server_port_and_package_manager
    (useYarn : bool) (port : Z) (w : World) :
  valid_port port ->
  exists s numeral,
    yields (handler {| RunServer.useYarn := Some useYarn; RunServer.port := Some port |}) w s
    /\ option_map Z.of_int (NilZero.int_of_string numeral) = Some port
    /\ drawn_from "0123456789" numeral = true
    /\ startsWith "0" numeral = false
    /\ numeral = decimal port
    /\ includes ("PORT=" ++ numeral ++ " " ++ resolved_token (Some useYarn) ++ " start") s = true
    /\ includes ("**With custom port:**
```bash
PORT=" ++ numeral ++ " " ++ resolved_token (Some useYarn) ++ " start
```") s = true
    /\ (includes "yarn" s = true <-> useYarn = true)
    /\ (useYarn = false -> includes "npm" s = true).
Proof.
  intros [Hpos _]. eexists. exists (decimal port).
  split; [reflexivity |].
  split; [apply decimal_reads_back |].
  destruct (decimal_positive port Hpos) as [Hdigits Hlead].
  split; [exact Hdigits |]. split; [exact Hlead |]. split; [reflexivity |].
  clear Hdigits Hlead.
  cbn [default_to RunServer.port RunServer.useYarn].
  change (ToString port) with (decimal port).
  pose proof (decimal_nonempty port) as Hne.
  pose proof (foreign_alphabet numeral_alphabet "yarn" _ eq_refl (decimal_digits port)) as Hf.
  revert Hne Hf. generalize (decimal port). intros P Hne Hf.
  destruct useYarn; cbn [append resolved_token default_to]; repeat split; intros;
    try discriminate; try occurs.
  match goal with
  | H : includes ?n ?h = true |- _ =>
      assert (E : includes n h = false) by absent; rewrite E in H; discriminate
  end.
Qed.

Lemma run_server_port_and_package_manager_witness :
  valid_port 8080
  /\ exists s numeral,
    yields (handler {| RunServer.useYarn := Some false; RunServer.port := Some 8080%Z |}) quiet s
    /\ option_map Z.of_int (NilZero.int_of_string numeral) = Some 8080%Z
    /\ drawn_from "0123456789" numeral = true
    /\ startsWith "0" numeral = false
    /\ numeral = "8080"
    /\ includes ("PORT=" ++ numeral ++ " npm start") s = true
    /\ includes ("**With custom port:**
```bash
PORT=" ++ numeral ++ " npm start
```") s = true
    /\ (includes "yarn" s = true <-> false = true)
    /\ (false = false -> includes "npm" s = true).
Proof.
  assert (Hv : valid_port 8080) by (split; [reflexivity | discriminate]).
  split; [exact Hv | exact (run_server_port_and_package_manager false 8080 quiet Hv)].
Defined.

(** The same text mentions npm exactly when [useYarn] is false: the two
    tokens exclude each other. *)
Lemma run_server_npm_iff (useYarn : bool) (port : Z) (w : World) :
  safe_integer port ->
  exists s,
    yields (handler {| RunServer.useYarn := Some useYarn; RunServer.port := Some port |}) w s
    /\ includes "npm" s = negb useYarn.
Proof.
  intros _. eexists. split; [reflexivity |].
  cbn [default_to RunServer.port RunServer.useYarn].
  change (ToString port) with (decimal port).
  pose proof (decimal_nonempty port) as Hne.
  pose proof (foreign_alphabet numeral_alphabet "npm" _ eq_refl (decimal_digits port)) as Hf.
  revert Hne Hf. generalize (decimal port). intros P Hne Hf.
  destruct useYarn; cbn [append negb]; [absent | occurs].
Qed.

(** C7: for [useYarn = false] and [port = 8080] the text contains
    [npm run dev], [npm start] and [PORT=8080 npm start], and yarn occurs
    nowhere in it. *)
Theorem run_server_npm_8080 (w : World) :
  exists s,
    yields (handler {| RunServer.useYarn := Some false; RunServer.port := Some 8080%Z |}) w s
    /\ includes "npm run dev" s = true
    /\ includes "npm start" s = true
    /\ includes "PORT=8080 npm start" s = true
    /\ includes "yarn" s = false.
Proof.
  eexists. split; [reflexivity |]. vm_compute. repeat split.
Qed.

(** C9: the handler is total over the numbers.  Whatever the type of
    numbers and whatever the text of a number is, for every [port] (zero,
    negative and fractional values included) the call is not rejected and
    returns the usual text, with the text of [port] substituted as it is
    in the [PORT=] line, in both tunnel command lines and in both URLs. *)
Theorem run_server_total_over_numbers
    {number : Type} `{Number number}
    (useYarn : option bool) (port : number) (w : World) :
  exists s,
    yields (handler {| RunServer.useYarn := useYarn; RunServer.port := Some port |}) w s
    /\ (forall e, fst (handler {| RunServer.useYarn := useYarn; RunServer.port := Some port |} w)
                  <> Rejected e)
    /\ includes ("PORT=" ++ ToString port ++ " " ++ resolved_token useYarn ++ " start") s = true
    /\ includes ("mcp-use start --port " ++ ToString port ++ " --tunnel") s = true
    /\ includes ("npx @mcp-use/tunnel " ++ ToString port ++ "  # Terminal 2") s = true
    /\ includes ("http://localhost:" ++ ToString port ++ "/mcp") s = true
    /\ includes ("http://localhost:" ++ ToString port ++ "/inspector") s = true.
Proof.
  eexists. split; [reflexivity |].
  split; [intros e; discriminate |].
  unfold resolved_token. cbn [default_to RunServer.port RunServer.useYarn].
  generalize (ToString port). intros P.
  destruct (default_to true useYarn); cbn [append]; repeat split; occurs.
Qed.

(** The text depends on the number only through its text, and two numbers
    get the same surrounding text. *)
Lemma run_server_uniform
    {number : Type} `{Number number}
    (useYarn : option bool) (p q : number) (w : World) :
  ToString p = ToString q ->
  handler {| RunServer.useYarn := useYarn; RunServer.port := Some p |} w
  = handler {| RunServer.useYarn := useYarn; RunServer.port := Some q |} w.
Proof.
  intros Hpq. unfold handler. cbn [default_to RunServer.port RunServer.useYarn].
  now rewrite Hpq.
Qed.

(** A fractional port: whatever number prints as [0.5] is substituted as
    it is. *)
Lemma run_server_port_fraction
    {number : Type} `{Number number} (half : number) (w : World) :
  ToString half = "0.5" ->
  exists s,
    yields (handler {| RunServer.useYarn := None; RunServer.port := Some half |}) w s
    /\ includes "PORT=0.5 yarn start" s = true
    /\ includes "mcp-use start --port 0.5 --tunnel" s = true.
Proof.
  intros Hhalf. eexists. split; [reflexivity |].
  cbn [default_to RunServer.port RunServer.useYarn]. rewrite Hhalf.
  vm_compute. split; reflexivity.
Qed.

(** Zero and a negative port, both safe integers. *)
Example run_server_port_zero :
  exists s,
    yields (handler {| RunServer.useYarn := None; RunServer.port := Some 0%Z |}) quiet s
    /\ includes "PORT=0 yarn start" s = true
    /\ includes "npx @mcp-use/tunnel 0  # Terminal 2" s = true.
Proof. eexists. split; [reflexivity |]. vm_compute. split; reflexivity. Qed.

Example run_server_port_negative :
  exists s,
    yields (handler {| RunServer.useYarn := None; RunServer.port := Some (-80)%Z |}) quiet s
    /\ includes "PORT=-80 yarn start" s = true
    /\ includes "mcp-use start --port -80 --tunnel" s = true.
Proof. eexists. split; [reflexivity |]. vm_compute. split; reflexivity. Qed.

End RunServerFacts.

(** ** Properties of the deploy-server tool *)
Module DeployServerFacts.
Import Occurrence DeployServer.

(** The handler settles in one step: the header followed by the text of
    the branch its conditional selects. *)
Lemma handler_unfold (a : args) (w : World) :
  yields (handler a) w
    (header ++
     let platform := default_to "mcp-use-cloud" (platform a) in
     if platform =? "mcp-use-cloud"
     then mcp_use_cloud_instructions (resolved_token (useYarn a))
     else if platform =? "supabase" then supabase_instructions
          else custom_platform_instructions).
Proof.
  unfold yields, handler, resolve, resolved_token, header. cbv zeta.
  destruct (default_to "mcp-use-cloud" (platform a) =? "mcp-use-cloud");
    [reflexivity |].
  destruct (default_to "mcp-use-cloud" (platform a) =? "supabase"); reflexivity.
Qed.

(** C10: for every input, a platform outside the enumeration included,
    the returned text begins with the header line followed by a blank
    line; the platform-specific text, one of the three branch texts, comes
    after it. *)
Theorem deploy_server_header (a : args) (w : World) :
  exists s rest,
    yields (handler a) w s
    /\ s = "# Deploy Your MCP Server

" ++ rest
    /\ startsWith "# Deploy Your MCP Server

" s = true
    /\ In rest (branches (resolved_token (useYarn a))).
Proof.
  eexists. eexists. split; [apply handler_unfold |].
  split; [reflexivity |]. split; [reflexivity |].
  cbv zeta. unfold branches.
  destruct (default_to "mcp-use-cloud" (platform a) =? "mcp-use-cloud");
    [now left |].
  destruct (default_to "mcp-use-cloud" (platform a) =? "supabase");
    [right; now left | right; right; now left].
Qed.

(** C3 as stated fails: a platform outside the enumeration is answered,
    not refused with [ConfigurationError]. *)
Lemma deploy_server_unlisted_platform_answered :
  ~ In "heroku" platforms
  /\ (exists s,
        yields (handler {| useYarn := Some true; platform := Some "heroku" |}) quiet s)
  /\ ~ fails_with (handler {| useYarn := Some true; platform := Some "heroku" |}) quiet
         ConfigurationError.
Proof.
  split; [| split].
  - simpl. intros [H | [H | [H | []]]]; discriminate H.
  - eexists. reflexivity.
  - eapply yields_not_fails. reflexivity.
Qed.

(** C3, amended: the handler never fails.  For every input, inside the
    enumeration or not, it returns a text and throws no error; a platform
    outside the enumeration takes the final [else] branch and gets the
    custom-platform text. *)
Theorem deploy_server_never_fails (a : args) (w : World) :
  (exists s, yields (handler a) w s)
  /\ (forall e, fst (handler a w) <> Rejected e)
  /\ (forall p, platform a = Some p -> ~ In p platforms ->
        yields (handler a) w (header ++ custom_platform_instructions)).
Proof.
  split; [| split].
  - eexists. apply handler_unfold.
  - intros e. apply (yields_not_fails _ _ _ (handler_unfold a w)).
  - intros p Hp Hout. pose proof (handler_unfold a w) as Hy.
    rewrite Hp in Hy. cbn [default_to] in Hy.
    destruct (String.eqb_spec p "mcp-use-cloud") as [-> | _];
      [elim Hout; simpl; auto |].
    destruct (String.eqb_spec p "supabase") as [-> | _];
      [elim Hout; simpl; auto |].
    exact Hy.
Qed.

Lemma deploy_server_never_fails_witness :
  yields (handler {| useYarn := None; platform := Some "fly.io" |}) quiet
    (header ++ custom_platform_instructions).
Proof.
  refine (proj2 (proj2 (deploy_server_never_fails
                          {| useYarn := None; platform := Some "fly.io" |} quiet))
                "fly.io" eq_refl _).
  simpl. intros [H | [H | [H | []]]]; discriminate H.
Defined.

(** C4: for each of the three enumerated platforms the handler appends
    exactly one of the three branch texts.  The text returned is the
    header followed by one branch, that branch is the only one of the
    three that occurs in it, and the branch texts exclude each other. *)
Theorem deploy_server_one_branch (useYarn : option bool) (p : string) (w : World) :
  In p platforms ->
  exists s b,
    yields (handler {| useYarn := useYarn; platform := Some p |}) w s
    /\ In b (branches (resolved_token useYarn))
    /\ s = header ++ b
    /\ appearing (resolved_token useYarn) s = [b]
    /\ exclusive = true.
Proof.
  intros Hp. simpl in Hp.
  destruct Hp as [<- | [<- | [<- | []]]]; destruct useYarn as [[|] |];
    eexists; eexists; (split; [apply handler_unfold |]);
    (refine (conj _ (conj eq_refl _));
     [vm_compute; auto | split; vm_compute; reflexivity]).
Qed.

Lemma deploy_server_one_branch_witness :
  In "supabase" platforms
  /\ exists s b,
    yields (handler {| useYarn := Some true; platform := Some "supabase" |}) quiet s
    /\ In b (branches "yarn")
    /\ s = header ++ b
    /\ appearing "yarn" s = [b]
    /\ exclusive = true.
Proof.
  assert (Hin : In "supabase" platforms) by (right; left; reflexivity).
  split; [exact Hin |].
  exact (deploy_server_one_branch (Some true) "supabase" quiet Hin).
Defined.

(** Which branch each platform gets. *)
Lemma deploy_server_selection (useYarn : option bool) (w : World) :
  yields (handler {| useYarn := useYarn; platform := Some "mcp-use-cloud" |}) w
    (header ++ mcp_use_cloud_instructions (resolved_token useYarn))
  /\ yields (handler {| useYarn := useYarn; platform := Some "supabase" |}) w
       (header ++ supabase_instructions)
  /\ yields (handler {| useYarn := useYarn; platform := Some "other" |}) w
       (header ++ custom_platform_instructions).
Proof. repeat split; apply handler_unfold. Qed.

(** C8: for the supabase platform the text contains the Supabase
    instructions (install the CLI, initialise, deploy the edge function)
    and none of the login instructions of the mcp-use Cloud branch. *)
Theorem deploy_server_supabase (useYarn : option bool) (w : World) :
  exists s,
    yields (handler {| useYarn := useYarn; platform := Some "supabase" |}) w s
    /\ includes supabase_instructions s = true
    /\ includes "npm install -g supabase" s = true
    /\ includes "supabase init" s = true
    /\ includes "supabase functions deploy mcp-server" s = true
    /\ includes "npx mcp-use login" s = false
    /\ includes "Login" s = false
    /\ includes (mcp_use_cloud_instructions (resolved_token useYarn)) s = false.
Proof.
  eexists. split; [apply handler_unfold |].
  cbn [DeployServer.useYarn DeployServer.platform default_to].
  unfold resolved_token. destruct (default_to true useYarn);
    vm_compute; repeat split.
Qed.

End DeployServerFacts.

(** ** Properties of the composer as a whole *)
Module ComposerFacts.
Import Occurrence DeployServerFacts.

(** C2 as stated fails for the deploy-server tool: on the
    supabase platform with [useYarn = true] the text has no yarn in it,
    and on the other platform with [useYarn = false] it has no npm. *)
Lemma deploy_server_token_missing :
  (exists s,
     yields (DeployServer.handler
               {| DeployServer.useYarn := Some true;
                  DeployServer.platform := Some "supabase" |}) quiet s
     /\ resolved_token (Some true) = "yarn"
     /\ includes "yarn" s = false)
  /\ (exists s,
        yields (DeployServer.handler
                  {| DeployServer.useYarn := Some false;
                     DeployServer.platform := Some "other" |}) quiet s
        /\ resolved_token (Some false) = "npm"
        /\ includes "npm" s = false).
Proof.
  split; eexists; (split; [reflexivity | split; [reflexivity | vm_compute; reflexivity]]).
Qed.

(** C2, amended: the resolved package-manager token, yarn or npm, is
    substituted into the text of the run-server tool for every input, and
    into the text of the deploy-server tool when the platform is
    mcp-use-cloud, given or by default.  The supabase and other branches
    of the deploy-server tool have no package-manager substitution: their
    text is the same whatever [useYarn] is. *)
Theorem package_manager_token_embedded
    {number : Type} `{Number number}
    (useYarn : option bool) (port : option number) (w : World) :
  (exists s,
     yields (RunServer.handler
               {| RunServer.useYarn := useYarn; RunServer.port := port |}) w s
     /\ includes (resolved_token useYarn) s = true
     /\ includes (resolved_token useYarn ++ " run dev") s = true
     /\ includes (resolved_token useYarn ++ " run build") s = true
     /\ includes (resolved_token useYarn ++ " start") s = true)
  /\ (exists s,
        yields (DeployServer.handler
                  {| DeployServer.useYarn := useYarn;
                     DeployServer.platform := Some "mcp-use-cloud" |}) w s
        /\ includes (resolved_token useYarn) s = true
        /\ includes (resolved_token useYarn ++ " run deploy") s = true)
  /\ (exists s,
        yields (DeployServer.handler
                  {| DeployServer.useYarn := useYarn;
                     DeployServer.platform := None |}) w s
        /\ includes (resolved_token useYarn) s = true
        /\ includes (resolved_token useYarn ++ " run deploy") s = true)
  /\ (forall other : option bool,
        DeployServer.handler
          {| DeployServer.useYarn := useYarn; DeployServer.platform := Some "supabase" |} w
        = DeployServer.handler
            {| DeployServer.useYarn := other; DeployServer.platform := Some "supabase" |} w)
  /\ (forall other : option bool,
        DeployServer.handler
          {| DeployServer.useYarn := useYarn; DeployServer.platform := Some "other" |} w
        = DeployServer.handler
            {| DeployServer.useYarn := other; DeployServer.platform := Some "other" |} w).
Proof.
  split; [| split; [| split; [| split]]].
  - eexists. split; [reflexivity |].
    unfold resolved_token. cbn [RunServer.port RunServer.useYarn].
    generalize (ToString (default_to (literal 3000) port)). intros P.
    destruct (default_to true useYarn); cbn [append]; repeat split; occurs.
  - eexists. split; [apply handler_unfold |].
    unfold resolved_token. cbn [DeployServer.useYarn].
    destruct (default_to true useYarn); vm_compute; split; reflexivity.
  - eexists. split; [apply handler_unfold |].
    unfold resolved_token. cbn [DeployServer.useYarn].
    destruct (default_to true useYarn); vm_compute; split; reflexivity.
  - intros other. reflexivity.
  - intros other. reflexivity.
Qed.

(** C5: a call with its parameters omitted returns what the call with the
    defaults returns, byte for byte: [useYarn = true] and [port = 3000]
    for run-server, [useYarn = true] and [platform = mcp-use-cloud] for
    deploy-server.  The same holds when only one parameter is omitted. *)
Theorem omitted_parameters_take_defaults
    {number : Type} `{Number number}
    (useYarn : bool) (port : number) (platform : string) (w : World) :
  RunServer.handler {| RunServer.useYarn := None; RunServer.port := None |} w
  = RunServer.handler
      {| RunServer.useYarn := Some true; RunServer.port := Some (literal 3000) |} w
  /\ RunServer.handler {| RunServer.useYarn := None; RunServer.port := Some port |} w
     = RunServer.handler {| RunServer.useYarn := Some true; RunServer.port := Some port |} w
  /\ RunServer.handler {| RunServer.useYarn := Some useYarn; RunServer.port := None |} w
     = RunServer.handler
         {| RunServer.useYarn := Some useYarn; RunServer.port := Some (literal 3000) |} w
  /\ DeployServer.handler
       {| DeployServer.useYarn := None; DeployServer.platform := None |} w
     = DeployServer.handler
         {| DeployServer.useYarn := Some true;
            DeployServer.platform := Some "mcp-use-cloud" |} w
  /\ DeployServer.handler
       {| DeployServer.useYarn := None; DeployServer.platform := Some platform |} w
     = DeployServer.handler
         {| DeployServer.useYarn := Some true; DeployServer.platform := Some platform |} w
  /\ DeployServer.handler
       {| DeployServer.useYarn := Some useYarn; DeployServer.platform := None |} w
     = DeployServer.handler
         {| DeployServer.useYarn := Some useYarn;
            DeployServer.platform := Some "mcp-use-cloud" |} w.
Proof. repeat split. Qed.

(** On the integers the default port is the number 3000. *)
Example run_server_default_port (w : World) :
  RunServer.handler {| RunServer.useYarn := None; RunServer.port := None |} w
  = RunServer.handler
      {| RunServer.useYarn := Some true; RunServer.port := Some 3000%Z |} w.
Proof. reflexivity. Qed.

(** C6: the outcome of a call depends on its parameters only.  Two calls
    with the same parameters settle alike in any two worlds, whatever the
    clock, the random state, the environment and the calls made before,
    and a call leaves its world as it found it. *)
Theorem calls_are_stateless
    {number : Type} `{Number number}
    (run : RunServer.args number) (deploy : DeployServer.args) (w1 w2 : World) :
  fst (RunServer.handler run w1) = fst (RunServer.handler run w2)
  /\ snd (RunServer.handler run w1) = w1
  /\ fst (DeployServer.handler deploy w1) = fst (DeployServer.handler deploy w2)
  /\ snd (DeployServer.handler deploy w1) = w1
  /\ fst (RunServer.handler run (snd (DeployServer.handler deploy w1)))
     = fst (RunServer.handler run w1)
  /\ fst (DeployServer.handler deploy (snd (RunServer.handler run w1)))
     = fst (DeployServer.handler deploy w1).
Proof. repeat split. Qed.

End ComposerFacts.

(** ** The server options *)
Module ServerFacts.
Import Server.

(** X7: the base URL is never empty: an [MCP_URL] that is unset or empty
    gives the local default, and any other value is taken as it is. *)
Theorem baseUrl_fallback (w : World) :
  baseUrl (server w) <> ""
  /\ (forall u, MCP_URL w = Some u -> u <> "" -> baseUrl (server w) = u)
  /\ (MCP_URL w = None \/ MCP_URL w = Some "" ->
      baseUrl (server w) = "http://localhost:3000").
Proof.
  unfold server; cbn [baseUrl]. destruct (MCP_URL w) as [[| c u] |]; cbn [or_else].
  - split; [discriminate |]. split; [intros u [= <-] Hu; now elim Hu | reflexivity].
  - split; [discriminate |]. split; [now intros v [= <-] _ |].
    intros [H | H]; discriminate H.
  - split; [discriminate |]. split; [discriminate | reflexivity].
Qed.

Lemma baseUrl_fallback_witness : baseUrl (server quiet) = "http://localhost:3000".
Proof.
  exact (proj2 (proj2 (baseUrl_fallback quiet)) (or_introl eq_refl)).
Defined.

End ServerFacts.

(** ** The layout of the run-server text *)
Module RunServerLayout.
Import Occurrence RunServer.

Lemma length_append (a b : string) :
  String.length (a ++ b) = String.length a + String.length b.
Proof. induction a as [| c a IH]; simpl; [reflexivity | now rewrite IH]. Qed.

Lemma count_append (c : ascii) (a b : string) :
  count c (a ++ b) = count c a + count c b.
Proof.
  induction a as [| d a IH]; simpl; [reflexivity |].
  rewrite IH. apply Nat.add_assoc.
Qed.

Lemma count_absent (c : ascii) (s : string) : mentions c s = false -> count c s = 0.
Proof.
  induction s as [| d s IH]; simpl; [reflexivity |].
  intros [-> Hs]%orb_false_iff. now apply IH.
Qed.

Lemma mentions_drawn_from (c : ascii) (alphabet s : string) :
  mentions c alphabet = false -> drawn_from alphabet s = true -> mentions c s = false.
Proof.
  intros Hc. induction s as [| d s IH]; simpl; [reflexivity |].
  intros [Hd Hs]%andb_true_iff. rewrite (IH Hs), orb_false_r.
  destruct (Ascii.eqb_spec d c) as [-> | _]; [| reflexivity].
  now rewrite Hc in Hd.
Qed.

Lemma endsWith_append (n a : string) : endsWith n (a ++ n) = true.
Proof.
  induction a as [| c a IH]; simpl.
  - destruct n; simpl; [reflexivity |]. now rewrite Ascii.eqb_refl, String.eqb_refl.
  - rewrite IH. apply orb_true_r.
Qed.

Lemma endsWith_app_r (n a b : string) :
  endsWith n b = true -> endsWith n (a ++ b) = true.
Proof.
  intros Hb. induction a as [| c a IH]; [exact Hb |].
  simpl. rewrite IH. apply orb_true_r.
Qed.

Ltac at_the_end :=
  lazymatch goal with
  | |- endsWith _ (append _ _) = true => apply endsWith_app_r; at_the_end
  | |- endsWith _ _ = true => vm_compute; reflexivity
  end.

(** Two integers with the same numeral are equal. *)
Lemma decimal_injective (y z : Z) : decimal y = decimal z -> y = z.
Proof.
  unfold decimal. intros Hyz. apply DecimalZ.to_int_inj.
  destruct (to_int_proper y) as [Hy1 Hy2], (to_int_proper z) as [Hz1 Hz2].
  pose proof (NilZero.isi _ Hy1 Hy2) as Ey. pose proof (NilZero.isi _ Hz1 Hz2) as Ez.
  rewrite Hyz, Ez in Ey. now injection Ey.
Qed.

Lemma append_cancel (x a b : string) : x ++ a = x ++ b -> a = b.
Proof. induction x as [| c x IH]; simpl; [auto | intros [= E]; auto]. Qed.

(** Two texts that agree up to a separator absent from both agree before
    it. *)
Lemma split_at_separator (d : ascii) (p q a b : string) :
  mentions d p = false -> mentions d q = false ->
  p ++ String d a = q ++ String d b -> p = q.
Proof.
  revert q. induction p as [| c p IH]; intros [| e q]; simpl; intros Hp Hq E.
  - reflexivity.
  - injection E as -> _. now rewrite Ascii.eqb_refl in Hq.
  - injection E as -> _. now rewrite Ascii.eqb_refl in Hp.
  - injection E as -> E. apply orb_false_iff in Hp as [_ Hp], Hq as [_ Hq].
    f_equal. now apply IH.
Qed.

(** Drop the literal text two equal texts start with. *)
Ltac cancel_literal E :=
  lazymatch type of E with
  | ?l = ?r =>
      let x := literal_head l in
      let a := literal_rest l in
      let b := literal_rest r in
      change (x ++ a = x ++ b) in E; apply append_cancel in E
  end.

(** X1: on safe-integer ports the text tells its input.  Two calls whose
    ports are omitted or safe integers return the same text exactly when
    they resolve to the same package manager and the same port, defaults
    included. *)
Theorem run_server_injective
    (useYarn1 useYarn2 : option bool) (port1 port2 : option Z) (w : World) :
  safe_port port1 -> safe_port port2 ->
  handler {| RunServer.useYarn := useYarn1; RunServer.port := port1 |} w
  = handler {| RunServer.useYarn := useYarn2; RunServer.port := port2 |} w
  <-> default_to true useYarn1 = default_to true useYarn2
      /\ default_to 3000%Z port1 = default_to 3000%Z port2.
Proof.
  intros _ _. split.
  - unfold handler, resolve. cbn [RunServer.port RunServer.useYarn].
    change (@literal Z integer_Number 3000%Z) with 3000%Z.
    change (@ToString Z integer_Number) with decimal.
    intros [= E]. revert E.
    pose proof (mentions_drawn_from " " numeral_alphabet _ eq_refl
                  (decimal_digits (default_to 3000%Z port1))) as H1.
    pose proof (mentions_drawn_from " " numeral_alphabet _ eq_refl
                  (decimal_digits (default_to 3000%Z port2))) as H2.
    assert (Hd : decimal (default_to 3000%Z port1) = decimal (default_to 3000%Z port2)
                 -> default_to 3000%Z port1 = default_to 3000%Z port2)
      by apply decimal_injective.
    revert H1 H2 Hd.
    generalize (decimal (default_to 3000%Z port1)), (decimal (default_to 3000%Z port2)).
    intros P Q HP HQ Hd.
    destruct (default_to true useYarn1), (default_to true useYarn2);
      cbn [append]; intros E; try discriminate E;
      (split; [reflexivity |]); apply Hd; cancel_literal E;
      exact (split_at_separator _ _ _ _ _ HP HQ E).
  - unfold handler. cbn [RunServer.port RunServer.useYarn].
    change (@literal Z integer_Number 3000%Z) with 3000%Z.
    now intros [-> ->].
Qed.

Lemma run_server_injective_witness :
  safe_port None /\ safe_port (Some 3000%Z)
  /\ default_to true None = default_to true (Some true)
  /\ default_to 3000%Z None = default_to 3000%Z (Some 3000%Z).
Proof.
  assert (Hs : safe_port (Some 3000%Z)) by (split; discriminate).
  split; [exact I |]. split; [exact Hs |].
  exact (proj1 (run_server_injective None (Some true) None (Some 3000%Z) quiet I Hs)
               eq_refl).
Defined.

(** X4: a safe-integer port never breaks the layout.  Whatever the
    package manager, for a port that is omitted or a safe integer the text
    has 41 line feeds and 24 backquotes, the eight code fences of the
    template: the numeral adds no line and no fence. *)
Theorem run_server_lines_and_fences
    (useYarn : option bool) (port : option Z) (w : World) :
  safe_port port ->
  exists s,
    yields (handler {| RunServer.useYarn := useYarn; RunServer.port := port |}) w s
    /\ count line_feed s = 41
    /\ count backquote s = 24.
Proof.
  intros _. eexists. split; [reflexivity |].
  cbn [RunServer.port RunServer.useYarn].
  change (ToString (default_to (literal 3000) port))
    with (decimal (default_to 3000%Z port)).
  pose proof (count_absent line_feed _
                (mentions_drawn_from line_feed numeral_alphabet _ eq_refl
                   (decimal_digits (default_to 3000%Z port)))) as Hl.
  pose proof (count_absent backquote _
                (mentions_drawn_from backquote numeral_alphabet _ eq_refl
                   (decimal_digits (default_to 3000%Z port)))) as Hb.
  revert Hl Hb. generalize (decimal (default_to 3000%Z port)). intros P Hl Hb.
  destruct (default_to true useYarn); rewrite !count_append, Hl, Hb; split; reflexivity.
Qed.

Lemma run_server_lines_and_fences_witness :
  safe_port (Some 8080%Z)
  /\ exists s,
    yields (handler {| RunServer.useYarn := Some false; RunServer.port := Some 8080%Z |})
      quiet s
    /\ count line_feed s = 41
    /\ count backquote s = 24.
Proof.
  assert (Hs : safe_port (Some 8080%Z)) by (split; discriminate).
  split; [exact Hs |].
  exact (run_server_lines_and_fences (Some false) (Some 8080%Z) quiet Hs).
Defined.

(** X5: the size of the text.  For any number it is 801 bytes of fixed
    text plus five copies of the text of the port and five copies of the
    package-manager token. *)
Theorem run_server_length
    {number : Type} `{Number number}
    (useYarn : option bool) (port : option number) (w : World) :
  exists s,
    yields (handler {| RunServer.useYarn := useYarn; RunServer.port := port |}) w s
    /\ String.length s
       = 801 + 5 * String.length (ToString (default_to (literal 3000) port))
         + 5 * String.length (resolved_token useYarn).
Proof.
  eexists. split; [reflexivity |].
  cbn [RunServer.port RunServer.useYarn]. unfold resolved_token.
  generalize (ToString (default_to (literal 3000) port)). intros P.
  destruct (default_to true useYarn); rewrite !length_append; cbn [String.length]; lia.
Qed.

(** X6: the frame of the text.  For any number and any text of it, the
    text begins with the heading and the opening of the development
    section and ends with the link to the tunneling guide. *)
Theorem run_server_frame
    {number : Type} `{Number number}
    (useYarn : option bool) (port : option number) (w : World) :
  exists s,
    yields (handler {| RunServer.useYarn := useYarn; RunServer.port := port |}) w s
    /\ startsWith "To run your MCP server locally:

**Development mode (with hot reload):**
```bash
" s = true
    /\ endsWith "

Learn more: https://mcp-use.com/docs/tunneling" s = true.
Proof.
  eexists. split; [reflexivity |]. split; [reflexivity | at_the_end].
Qed.

End RunServerLayout.

(** ** What the deploy-server text tells, and the two tools together *)
Module DeployServerLayout.
Import Occurrence DeployServer DeployServerFacts.

(** X3: on the enumerated platforms the text tells the platform.  Two
    calls that return the same text were given the same platform, and on
    mcp-use-cloud the same package manager as well. *)
Theorem deploy_server_text_tells_platform
    (useYarn1 useYarn2 : option bool) (platform1 platform2 : string) (w : World) :
  In platform1 platforms -> In platform2 platforms ->
  handler {| useYarn := useYarn1; platform := Some platform1 |} w
  = handler {| useYarn := useYarn2; platform := Some platform2 |} w ->
  platform1 = platform2
  /\ (platform1 = "mcp-use-cloud" -> resolved_token useYarn1 = resolved_token useYarn2).
Proof.
  intros H1 H2 E.
  rewrite (handler_unfold _ w), (handler_unfold _ w) in E.
  injection E as E. apply (f_equal String.length) in E. revert E.
  cbn [DeployServer.useYarn DeployServer.platform default_to]. unfold resolved_token.
  simpl in H1, H2.
  destruct H1 as [<- | [<- | [<- | []]]], H2 as [<- | [<- | [<- | []]]];
    destruct (default_to true useYarn1), (default_to true useYarn2);
    vm_compute; intros E; try discriminate E; split; (reflexivity || discriminate).
Qed.

Lemma deploy_server_text_tells_platform_witness :
  In "supabase" platforms /\ In "supabase" platforms
  /\ handler {| useYarn := Some true; platform := Some "supabase" |} quiet
     = handler {| useYarn := Some false; platform := Some "supabase" |} quiet
  /\ "supabase" = "supabase"
  /\ ("supabase" = "mcp-use-cloud" -> resolved_token (Some true) = resolved_token (Some false)).
Proof.
  assert (Hin : In "supabase" platforms) by (right; left; reflexivity).
  split; [exact Hin |]. split; [exact Hin |]. split; [reflexivity |].
  exact (deploy_server_text_tells_platform (Some true) (Some false)
           "supabase" "supabase" quiet Hin Hin eq_refl).
Defined.

(** X2: the two tools agree on the package manager.  For the same
    [useYarn], given or omitted, and a port that is omitted or a safe
    integer, the run-server text and the deploy-server text for mcp-use
    Cloud both mention yarn exactly when [useYarn] resolves to true and npm
    exactly when it resolves to false: each names one package manager, and
    the same one. *)
Theorem tools_agree_on_package_manager
    (useYarn : option bool) (port : option Z) (w : World) :
  safe_port port ->
  exists r d,
    yields (RunServer.handler
              {| RunServer.useYarn := useYarn; RunServer.port := port |}) w r
    /\ yields (handler {| useYarn := useYarn; platform := None |}) w d
    /\ includes "yarn" r = default_to true useYarn
    /\ includes "yarn" d = default_to true useYarn
    /\ includes "npm" r = negb (default_to true useYarn)
    /\ includes "npm" d = negb (default_to true useYarn).
Proof.
  intros _.
  eexists. eexists. split; [reflexivity |]. split; [apply handler_unfold |].
  cbn [RunServer.port RunServer.useYarn DeployServer.useYarn DeployServer.platform].
  unfold resolved_token.
  change (ToString (default_to (literal 3000) port))
    with (decimal (default_to 3000%Z port)).
  pose proof (decimal_nonempty (default_to 3000%Z port)) as Hne.
  pose proof (foreign_alphabet numeral_alphabet "yarn" _ eq_refl
                (decimal_digits (default_to 3000%Z port))) as Hy.
  pose proof (foreign_alphabet numeral_alphabet "npm" _ eq_refl
                (decimal_digits (default_to 3000%Z port))) as Hn.
  revert Hne Hy Hn. generalize (decimal (default_to 3000%Z port)). intros P Hne Hy Hn.
  destruct (default_to true useYarn); cbn [append negb default_to];
    repeat split; first [occurs | absent | vm_compute; reflexivity].
Qed.

Lemma tools_agree_on_package_manager_witness :
  safe_port (Some 8080%Z)
  /\ exists r d,
    yields (RunServer.handler
              {| RunServer.useYarn := Some false; RunServer.port := Some 8080%Z |}) quiet r
    /\ yields (handler {| useYarn := Some false; platform := None |}) quiet d
    /\ includes "yarn" r = false
    /\ includes "yarn" d = false
    /\ includes "npm" r = true
    /\ includes "npm" d = true.
Proof.
  assert (Hs : safe_port (Some 8080%Z)) by (split; discriminate).
  split; [exact Hs |].
  exact (tools_agree_on_package_manager (Some false) (Some 8080%Z) quiet Hs).
Defined.

End DeployServerLayout.
